(** * The language-mode registry of the Vue language server

    A shallow embedding of [server/src/embeddedSupport/languageModes.ts]:
    the class [LanguageModes], which keeps one language mode per language
    identifier, dispatches by position or by region, and fans the document
    and shutdown notifications out to its caches and modes. *)

From Stdlib Require Import ZArith.
From stdpp Require Import base option list strings gmap fin_maps.

Local Open Scope string_scope.
Local Open Scope list_scope.

(** ** Data model *)

(** [LanguageId] is a union of string literals in TypeScript; at run time
    it is a string, and it is the key of the [modes] object. *)
Definition LanguageId := string.

(** A language mode is an object; what the registry stores is a reference
    to it.  Two references are the same object iff they are equal. *)
Definition ModeRef := nat.

Record Position := { line : Z; character : Z }.

Record TextDocument := {
  doc_uri : string;
  doc_languageId : string;
  doc_version : Z;
  doc_text : string }.

(** [LanguageRange extends Range { languageId; attributeValue? }]. *)
Record LanguageRange := {
  languageId : LanguageId;
  start : Position;
  end_ : Position;
  attributeValue : option bool }.

(** [LanguageModeRange extends LanguageRange { mode }]. *)
Record LanguageModeRange := {
  mode : ModeRef;
  lmr_languageId : LanguageId;
  lmr_start : Position;
  lmr_end : Position;
  lmr_attributeValue : option bool }.

(** The object literal [{ mode, ...lr }]. *)
Definition withMode (m : ModeRef) (lr : LanguageRange) : LanguageModeRange :=
  {| mode := m;
     lmr_languageId := languageId lr;
     lmr_start := start lr;
     lmr_end := end_ lr;
     lmr_attributeValue := attributeValue lr |}.


(** The part of [VueDocumentRegions] the registry calls. *)
Record VueDocumentRegions := {
  getLanguageAtPosition : Position -> LanguageId;
  getAllLanguageRanges : list LanguageRange }.

(** ** JavaScript objects used as tables

    An object with string keys enumerates them in insertion order, and
    writing an existing key keeps its place.  The identifiers used as keys
    are never names of [Object.prototype] members, so a read of a key the
    object does not own gives [undefined] ([None]). *)
Module Obj.
Definition t (V : Type) := list (string * V).

Definition empty {V} : t V := [].

Fixpoint get {V} (k : string) (o : t V) : option V :=
  match o with
  | [] => None
  | (k', v) :: o' => if String.eqb k k' then Some v else get k o'
  end.

Fixpoint set {V} (k : string) (v : V) (o : t V) : t V :=
  match o with
  | [] => [(k, v)]
  | (k', v') :: o' =>
      if String.eqb k k' then (k', v) :: o' else (k', v') :: set k v o'
  end.

Definition keys {V} (o : t V) : list string := o.*1.
Definition values {V} (o : t V) : list V := o.*2.

(** No key is owned twice. *)
Definition wf {V} (o : t V) : Prop := NoDup (keys o).
End Obj.

(** ** The model cache ([languageModelCache.ts])

    The cache maps the identity of a document to the model computed for
    one version of it.  Its periodic sweep runs on a timer, between
    requests; no method of the registry performs it, and it is present
    here only as the resource [dispose] releases. *)

Record CacheEntry := {
  version : Z;
  value : VueDocumentRegions;
  lastAccessTime : Z }.

Record VersionedModelCache := {
  entries : gmap string CacheEntry;
  maxEntries : nat;
  cleanupIntervalTimeInSec : Z;
  cleanupTimer : bool }.

(** Modelled from the spec: the factory of [languageModelCache.ts], absent
    from the sources; an empty cache holding its capacity, its sweep
    interval and a running periodic-cleanup resource. *)
Definition getLanguageModelCache (maxN : nat) (interval : Z) : VersionedModelCache :=
  {| entries := ∅;
     maxEntries := maxN;
     cleanupIntervalTimeInSec := interval;
     cleanupTimer := true |}.

Definition withEntries (c : VersionedModelCache) (m : gmap string CacheEntry)
  : VersionedModelCache :=
  {| entries := m;
     maxEntries := maxEntries c;
     cleanupIntervalTimeInSec := cleanupIntervalTimeInSec c;
     cleanupTimer := cleanupTimer c |}.

(** The identity whose entry was used least recently. *)
Definition leastRecentlyUsed (m : gmap string CacheEntry) : option string :=
  fst <$>
  foldr (fun kv best =>
           match best with
           | None => Some kv
           | Some kv' =>
               if (lastAccessTime kv.2 <? lastAccessTime kv'.2)%Z
               then Some kv else best
           end) None (map_to_list m).

Definition evictOverCapacity (c : VersionedModelCache) : VersionedModelCache :=
  if decide (maxEntries c < size (entries c))%nat
  then match leastRecentlyUsed (entries c) with
       | Some k => withEntries c (delete k (entries c))
       | None => c
       end
  else c.

(** Modelled from the spec: [get] of [languageModelCache.ts], absent from
    the sources.  It returns the cached value for the snapshot's identity
    if the cached version equals the snapshot's; otherwise it recomputes
    with [compute], stores the value under the identity with the new
    version and returns it; over capacity the least recently used entry
    goes. *)
Definition cache_get (compute : TextDocument -> VueDocumentRegions)
    (now : Z) (snapshot : TextDocument) (c : VersionedModelCache)
  : VueDocumentRegions * VersionedModelCache :=
  let fresh :=
    let v := compute snapshot in
    (v, evictOverCapacity
          (withEntries c
             (<[doc_uri snapshot :=
                  {| version := doc_version snapshot;
                     value := v;
                     lastAccessTime := now |}]> (entries c)))) in
  match entries c !! doc_uri snapshot with
  | Some e =>
      if (version e =? doc_version snapshot)%Z
      then (value e,
            withEntries c
              (<[doc_uri snapshot :=
                   {| version := version e;
                      value := value e;
                      lastAccessTime := now |}]> (entries c)))
      else fresh
  | None => fresh
  end.

(** Modelled from the spec: [onDocumentRemoved] of [languageModelCache.ts],
    absent from the sources; it evicts the identity's entry at once. *)
Definition cache_onDocumentRemoved (document : TextDocument)
    (c : VersionedModelCache) : VersionedModelCache :=
  withEntries c (delete (doc_uri document) (entries c)).

(** Modelled from the spec: [dispose] of [languageModelCache.ts], absent
    from the sources; it evicts everything and releases the
    periodic-cleanup resource. *)
Definition cache_dispose (c : VersionedModelCache) : VersionedModelCache :=
  {| entries := ∅;
     maxEntries := maxEntries c;
     cleanupIntervalTimeInSec := cleanupIntervalTimeInSec c;
     cleanupTimer := false |}.

(** ** The registry and the objects it reaches *)

(** The constructor creates a single cache object; the field
    [documentRegions] and the element pushed on [modelCaches] are both
    references to it. *)
Inductive CacheRef := RegionsCache.

(** The fields of the class.  [modes] is declared without an initialiser
    and [dispose] deletes it: [None] is the absent property, whose read
    gives [undefined]. *)
Record LanguageModes := {
  modes : option (Obj.t ModeRef);
  documentRegions : CacheRef;
  modelCaches : list CacheRef }.

(** The imported constructors of language modes.  Their bodies are other
    modules; every call returns a new object. *)
Inductive ModeFactory :=
| getVueMode | getVueHTMLMode
| getCSSMode | getPostCSSMode | getSCSSMode | getLESSMode | getStylusMode
| getJavascriptMode.

(** The lifecycle hooks the registry invokes on its collaborators. *)
Inductive Call :=
| Cache_onDocumentRemoved (mc : CacheRef) (document : TextDocument)
| Cache_dispose (mc : CacheRef)
| Mode_onDocumentRemoved (m : ModeRef) (document : TextDocument)
| Mode_dispose (m : ModeRef).

(** The registry together with what it shares with its callers: the cache
    object, the mode objects created so far ([ModeRef] [n] is the [n]-th),
    the clock the cache reads, and the hooks invoked so far, oldest
    first.  The hooks of a mode are recorded and return normally. *)
Record World := {
  self : LanguageModes;
  cacheObj : VersionedModelCache;
  instances : list ModeFactory;
  clock : Z;
  calls : list Call }.

Definition setModes (r : LanguageModes) (o : option (Obj.t ModeRef)) : LanguageModes :=
  {| modes := o; documentRegions := documentRegions r; modelCaches := modelCaches r |}.

Definition setModelCaches (r : LanguageModes) (l : list CacheRef) : LanguageModes :=
  {| modes := modes r; documentRegions := documentRegions r; modelCaches := l |}.

Definition setSelf (w : World) (r : LanguageModes) : World :=
  {| self := r; cacheObj := cacheObj w; instances := instances w;
     clock := clock w; calls := calls w |}.

Definition setCacheObj (w : World) (c : VersionedModelCache) : World :=
  {| self := self w; cacheObj := c; instances := instances w;
     clock := clock w; calls := calls w |}.

Definition record (c : Call) (w : World) : World :=
  {| self := self w; cacheObj := cacheObj w; instances := instances w;
     clock := clock w; calls := calls w ++ [c] |}.

(** ** Computations: state and exceptions *)

Inductive Error := TypeError.

Inductive Outcome (A : Type) :=
| Returned (a : A)
| Raised (e : Error).
Arguments Returned {A} a.
Arguments Raised {A} e.

Definition M (A : Type) : Type := World -> Outcome A * World.

Definition ret {A} (a : A) : M A := fun w => (Returned a, w).

Definition bind {A B} (c : M A) (k : A -> M B) : M B :=
  fun w =>
    match c w with
    | (Returned a, w') => k a w'
    | (Raised e, w') => (Raised e, w')
    end.

Notation "'let*' x ':=' c 'in' k" := (bind c (fun x => k))
  (at level 10, x name, c at level 100, k at level 200).

(** [l.forEach(body)] and [for (const x in ...) body]. *)
Fixpoint forEach {A} (l : list A) (body : A -> M unit) : M unit :=
  match l with
  | [] => ret tt
  | x :: l' => let* _ := body x in forEach l' body
  end.

(** A loop whose body may push one element on the local array [result]. *)
Fixpoint forEachPush {A B} (l : list A) (body : A -> M (option B))
    (result : list B) : M (list B) :=
  match l with
  | [] => ret result
  | x :: l' =>
      let* pushed := body x in
      forEachPush l' body
        (match pushed with Some b => result ++ [b] | None => result end)
  end.

(** [this.modes[k]], read. *)
Definition modes_read (k : LanguageId) : M (option ModeRef) :=
  fun w =>
    match modes (self w) with
    | Some o => (Returned (Obj.get k o), w)
    | None => (Raised TypeError, w)
    end.

(** [this.modes[k] = v]. *)
Definition modes_write (k : LanguageId) (v : ModeRef) : M unit :=
  fun w =>
    match modes (self w) with
    | Some o => (Returned tt, setSelf w (setModes (self w) (Some (Obj.set k v o))))
    | None => (Raised TypeError, w)
    end.

(** The keys [for (const k in this.modes)] visits: none when the property
    is [undefined]. *)
Definition modes_forIn : M (list LanguageId) :=
  fun w =>
    (Returned (match modes (self w) with Some o => Obj.keys o | None => [] end), w).

(** [delete this.modes]. *)
Definition modes_delete : M unit :=
  fun w => (Returned tt, setSelf w (setModes (self w) None)).

(** A call of one of the imported constructors. *)
Definition construct (f : ModeFactory) : M ModeRef :=
  fun w =>
    (Returned (length (instances w)),
     {| self := self w; cacheObj := cacheObj w; instances := instances w ++ [f];
        clock := clock w; calls := calls w |}).

(** [target.hook(...)] on the result of a table read: a [TypeError] when
    the read gave [undefined]. *)
Definition invoke (target : option ModeRef) (hook : ModeRef -> Call) : M unit :=
  fun w =>
    match target with
    | Some m => (Returned tt, record (hook m) w)
    | None => (Raised TypeError, w)
    end.

Definition ServiceRef := nat.

Record VLSServices := {
  infoService : option ServiceRef;
  dependencyService : option ServiceRef }.

Section Registry.

(** The segmenter: the function the constructor hands to the cache as its
    [compute]. *)
Variable getVueDocumentRegions : TextDocument -> VueDocumentRegions.

Definition cacheGet (mc : CacheRef) (document : TextDocument) : M VueDocumentRegions :=
  fun w =>
    let (v, c) := cache_get getVueDocumentRegions (clock w) document (cacheObj w) in
    (Returned v, setCacheObj w c).

Definition cacheOnDocumentRemoved (document : TextDocument) (mc : CacheRef) : M unit :=
  fun w =>
    (Returned tt,
     record (Cache_onDocumentRemoved mc document)
       (setCacheObj w (cache_onDocumentRemoved document (cacheObj w)))).

Definition cacheDispose (mc : CacheRef) : M unit :=
  fun w =>
    (Returned tt,
     record (Cache_dispose mc) (setCacheObj w (cache_dispose (cacheObj w)))).

(** [new LanguageModes()]: the cache is created and pushed on
    [modelCaches]; [modes] is not assigned. *)
Definition constructor (now : Z) : World :=
  {| self := {| modes := None;
                documentRegions := RegionsCache;
                modelCaches := [] ++ [RegionsCache] |};
     cacheObj := getLanguageModelCache 10 60;
     instances := [];
     clock := now;
     calls := [] |}.

(** [init]: the awaited construction of the script mode is taken to
    complete, and the calls run in the order of the source.  In a write
    [this.modes[k] = e] the right-hand side is evaluated before the store
    is attempted. *)
Definition init (workspacePath : string) (services : VLSServices) : M unit :=
  let* vueHtmlMode := construct getVueHTMLMode in
  let* jsMode := construct getJavascriptMode in
  let* vueMode := construct getVueMode in
  let* _ := modes_write "vue" vueMode in
  let* _ := modes_write "vue-html" vueHtmlMode in
  let* cssMode := construct getCSSMode in
  let* _ := modes_write "css" cssMode in
  let* postcssMode := construct getPostCSSMode in
  let* _ := modes_write "postcss" postcssMode in
  let* scssMode := construct getSCSSMode in
  let* _ := modes_write "scss" scssMode in
  let* lessMode := construct getLESSMode in
  let* _ := modes_write "less" lessMode in
  let* stylusMode := construct getStylusMode in
  let* _ := modes_write "stylus" stylusMode in
  let* _ := modes_write "javascript" jsMode in
  let* _ := modes_write "typescript" jsMode in
  modes_write "tsx" jsMode.

Definition getModeAtPosition (document : TextDocument) (position : Position)
  : M (option ModeRef) :=
  fun w =>
    (let* regions := cacheGet (documentRegions (self w)) document in
     let languageId := getLanguageAtPosition regions position in
     modes_read languageId) w.

Definition getAllLanguageModeRangesInDocument (document : TextDocument)
  : M (list LanguageModeRange) :=
  fun w =>
    (let* documentRegions := cacheGet (documentRegions (self w)) document in
     forEachPush (getAllLanguageRanges documentRegions)
       (fun lr =>
          let* mode := modes_read (languageId lr) in
          ret (match mode with
               | Some m => Some (withMode m lr)
               | None => None
               end))
       []) w.

Definition getAllModes : M (list ModeRef) :=
  let* keys := modes_forIn in
  forEachPush keys (fun languageId => modes_read languageId) [].

Definition getMode (languageId : LanguageId) : M (option ModeRef) :=
  modes_read languageId.

Definition onDocumentRemoved (document : TextDocument) : M unit :=
  fun w =>
    (let* _ := forEach (modelCaches (self w)) (cacheOnDocumentRemoved document) in
     let* keys := modes_forIn in
     forEach keys
       (fun mode =>
          let* target := modes_read mode in
          invoke target (fun m => Mode_onDocumentRemoved m document))) w.

Definition dispose : M unit :=
  fun w =>
    (let* _ := forEach (modelCaches (self w)) cacheDispose in
     let* _ := (fun w' => (Returned tt, setSelf w' (setModelCaches (self w') []))) in
     let* keys := modes_forIn in
     let* _ := forEach keys
                 (fun mode =>
                    let* target := modes_read mode in
                    invoke target Mode_dispose) in
     modes_delete) w.

End Registry.

(** ** Observations used in the statements *)

#[global] Instance Position_eq_dec : EqDecision Position.
Proof. solve_decision. Defined.

#[global] Instance TextDocument_eq_dec : EqDecision TextDocument.
Proof. solve_decision. Defined.

#[global] Instance CacheRef_eq_dec : EqDecision CacheRef.
Proof. solve_decision. Defined.

#[global] Instance Call_eq_dec : EqDecision Call.
Proof. solve_decision. Defined.

(** The table of the registry, empty when the property is absent. *)
Definition registered (w : World) : Obj.t ModeRef :=
  default Obj.empty (modes (self w)).



(** The world after the hooks [cs] were invoked, as far as the record of
    calls goes. *)
Definition recordAll (cs : list Call) (w : World) : World :=
  {| self := self w; cacheObj := cacheObj w; instances := instances w;
     clock := clock w; calls := calls w ++ cs |}.

(** The modes the loop [for (const k in this.modes)] reads. *)
Definition reads (w : World) : list ModeRef :=
  omap (fun k => Obj.get k (registered w)) (Obj.keys (registered w)).

(** The state of the world after a loop sent [hook] to every cache of [l],
    each call applying [f] to the cache object. *)
Definition afterCaches (f : VersionedModelCache -> VersionedModelCache)
    (hook : CacheRef -> Call) (l : list CacheRef) (w : World) : World :=
  {| self := self w;
     cacheObj := Nat.iter (length l) f (cacheObj w);
     instances := instances w;
     clock := clock w;
     calls := calls w ++ (hook <$> l) |}.

(** What the loop of [getAllLanguageModeRangesInDocument] pushes for [lr]
    when the table is [o]. *)
Definition paired (o : Obj.t ModeRef) (lr : LanguageRange) : option LanguageModeRange :=
  match Obj.get (languageId lr) o with
  | Some m => Some (withMode m lr)
  | None => None
  end.

(** The region model the cache hands out for [document] in the world [w]. *)
Definition regionsOf (seg : TextDocument -> VueDocumentRegions)
    (document : TextDocument) (w : World) : VueDocumentRegions :=
  (cache_get seg (clock w) document (cacheObj w)).1.

(** A registry whose [modes] field holds an empty object, as the declared
    type of the field and the writes of [init] expect it. *)
Definition withEmptyTable (w : World) : World :=
  setSelf w (setModes (self w) (Some Obj.empty)).

Definition noServices : VLSServices :=
  {| infoService := None; dependencyService := None |}.

(** The registry after [init] ran on an empty table. *)
Definition ready : World :=
  (init "/workspace" noServices (withEmptyTable (constructor 0))).2.

(** The registry after [new LanguageModes()] and [dispose()]. *)
Definition disposed : World := (dispose (constructor 0)).2.

Definition sampleDocument : TextDocument :=
  {| doc_uri := "file:///workspace/App.vue";
     doc_languageId := "vue";
     doc_version := 1;
     doc_text := "<template/><script/><docs/>" |}.

Definition at_ (l c : Z) : Position := {| line := l; character := c |}.

(** A segmentation with a template, a script and a block in a language
    that [init] registers no mode for. *)
Definition sampleRegions (document : TextDocument) : VueDocumentRegions :=
  {| getLanguageAtPosition := fun p =>
       if (line p <? 10)%Z then "vue-html"
       else if (line p <? 20)%Z then "javascript"
       else "pug";
     getAllLanguageRanges :=
       [ {| languageId := "vue-html"; start := at_ 0 10; end_ := at_ 9 0;
            attributeValue := None |};
         {| languageId := "pug"; start := at_ 20 0; end_ := at_ 25 0;
            attributeValue := None |};
         {| languageId := "javascript"; start := at_ 10 8; end_ := at_ 19 0;
            attributeValue := Some false |} ] |}.

(** The mode objects one run of [init] creates, in the order of the calls
    of their constructors. *)
Definition initFactories : list ModeFactory :=
  [getVueHTMLMode; getJavascriptMode; getVueMode; getCSSMode; getPostCSSMode;
   getSCSSMode; getLESSMode; getStylusMode].

(** The writes of one run of [init], in order, when [n] mode objects
    existed before it: the template mode is the object [n], the script
    mode the object [1 + n], and so on as in [initFactories]. *)
Definition initEntries (n : nat) : Obj.t ModeRef :=
  [("vue", 2 + n); ("vue-html", n); ("css", 3 + n); ("postcss", 4 + n);
   ("scss", 5 + n); ("less", 6 + n); ("stylus", 7 + n);
   ("javascript", 1 + n); ("typescript", 1 + n); ("tsx", 1 + n)].

(** The identifiers [init] writes. *)
Definition initKeys : list LanguageId := Obj.keys (initEntries 0).

(** A sequence of writes to a table. *)
Definition writeAll {V} (es : list (string * V)) (o : Obj.t V) : Obj.t V :=
  foldl (fun o' kv => Obj.set kv.1 kv.2 o') o es.

(** The world after a dispatch method asked the cache for the model of
    [document]. *)
Definition afterGet (seg : TextDocument -> VueDocumentRegions)
    (document : TextDocument) (w : World) : World :=
  setCacheObj w (cache_get seg (clock w) document (cacheObj w)).2.

(** ** Facts about tables *)

Lemma Obj_get_set_eq {V} (k : string) (v : V) (o : Obj.t V) :
  Obj.get k (Obj.set k v o) = Some v.
Proof.
  induction o as [|[k' v'] o IH]; simpl.
  - by rewrite String.eqb_refl.
  - destruct (String.eqb k k') eqn:E; simpl; rewrite E; [done | exact IH].
Qed.

Lemma Obj_get_set_ne {V} (k k' : string) (v : V) (o : Obj.t V) :
  k <> k' -> Obj.get k (Obj.set k' v o) = Obj.get k o.
Proof.
  intros Hne. induction o as [|[k0 v0] o IH]; simpl.
  - by apply String.eqb_neq in Hne as ->.
  - destruct (String.eqb k' k0) eqn:E; simpl.
    + apply String.eqb_eq in E as <-.
      by apply String.eqb_neq in Hne as ->.
    + by rewrite IH.
Qed.

Lemma Obj_get_own {V} (k : string) (o : Obj.t V) :
  k ∈ Obj.keys o -> is_Some (Obj.get k o).
Proof.
  unfold Obj.keys. induction o as [|[k' v'] o IH]; simpl.
  - by intros ?%elem_of_nil.
  - intros [->|Hin]%elem_of_cons.
    + rewrite String.eqb_refl. by eexists.
    + destruct (String.eqb k k'); [by eexists | by apply IH].
Qed.

Lemma Obj_get_entry {V} (k : string) (v : V) (o : Obj.t V) :
  Obj.wf o -> (k, v) ∈ o -> Obj.get k o = Some v.
Proof.
  unfold Obj.wf, Obj.keys. induction o as [|[k' v'] o IH]; simpl.
  - by intros _ ?%elem_of_nil.
  - intros [Hnotin Hnd]%NoDup_cons [Heq|Hin]%elem_of_cons.
    + injection Heq as -> ->. by rewrite String.eqb_refl.
    + destruct (String.eqb k k') eqn:E.
      * apply String.eqb_eq in E as ->. exfalso. apply Hnotin.
        apply list_elem_of_fmap. by exists (k', v).
      * by apply IH.
Qed.

(** Reading every own key of a table, in order, gives its values. *)
Lemma Obj_read_keys {V} (o : Obj.t V) :
  Obj.wf o -> omap (fun k => Obj.get k o) (Obj.keys o) = Obj.values o.
Proof.
  intros Hwf.
  assert (forall l : list (string * V), (forall kv, kv ∈ l -> kv ∈ o) ->
            omap (fun k => Obj.get k o) l.*1 = l.*2) as Hgen.
  { induction l as [|[k v] l IH]; intros Hsub; [done|]. simpl.
    rewrite (Obj_get_entry k v o Hwf) by (apply Hsub; left).
    f_equal. apply IH. intros kv Hkv. apply Hsub. by right. }
  by apply Hgen.
Qed.

(** ** Facts about the loops *)

Lemma reads_wf (w : World) : Obj.wf (registered w) -> reads w = Obj.values (registered w).
Proof. apply Obj_read_keys. Qed.

Lemma recordAll_nil (w : World) : recordAll [] w = w.
Proof. destruct w. unfold recordAll. simpl. by rewrite app_nil_r. Qed.

Lemma recordAll_record (c : Call) (cs : list Call) (w : World) :
  recordAll cs (record c w) = recordAll (c :: cs) w.
Proof. unfold recordAll, record. simpl. by rewrite <- app_assoc. Qed.

Lemma modes_forIn_run (w : World) :
  modes_forIn w = (Returned (Obj.keys (registered w)), w).
Proof. unfold modes_forIn, registered. by destruct (modes (self w)). Qed.

Lemma modes_read_registered (k : LanguageId) (w : World) :
  is_Some (Obj.get k (registered w)) ->
  modes_read k w = (Returned (Obj.get k (registered w)), w).
Proof.
  unfold modes_read, registered. destruct (modes (self w)); simpl; [done|].
  by intros [? ?].
Qed.

(** A loop over keys the table owns invokes the hook on each mode read and
    changes nothing else. *)
Lemma forEach_hooks (hook : ModeRef -> Call) (l : list LanguageId) :
  forall w : World,
    (forall k, k ∈ l -> is_Some (Obj.get k (registered w))) ->
    forEach l (fun k => let* target := modes_read k in invoke target hook) w
    = (Returned tt,
       recordAll (hook <$> omap (fun k => Obj.get k (registered w)) l) w).
Proof.
  induction l as [|k l IH]; intros w Hown; simpl.
  - by rewrite recordAll_nil.
  - unfold bind at 1. unfold bind at 1.
    assert (is_Some (Obj.get k (registered w))) as Hk by (apply Hown; left).
    rewrite (modes_read_registered k w Hk).
    destruct Hk as [m Hm]. rewrite Hm. simpl.
    rewrite (IH (record (hook m) w)) by (intros k' Hk'; apply Hown; by right).
    by rewrite recordAll_record.
Qed.

(** A pushing loop whose body only reads gathers what the body yields. *)
Lemma forEachPush_reading {A B} (body : A -> M (option B)) (h : A -> option B)
    (w : World) (l : list A) :
  (forall a, a ∈ l -> body a w = (Returned (h a), w)) ->
  forall result : list B,
    forEachPush l body result w = (Returned (result ++ omap h l), w).
Proof.
  induction l as [|a l IH]; intros Hbody result; simpl.
  - by rewrite app_nil_r.
  - unfold bind. rewrite (Hbody a) by left.
    rewrite IH by (intros a' Ha'; apply Hbody; by right).
    destruct (h a); simpl; [by rewrite <- app_assoc | done].
Qed.

Lemma forEach_caches (f : VersionedModelCache -> VersionedModelCache)
    (hook : CacheRef -> Call) (body : CacheRef -> M unit) (l : list CacheRef) :
  (forall mc w, body mc w = (Returned tt, record (hook mc) (setCacheObj w (f (cacheObj w))))) ->
  forall w, forEach l body w = (Returned tt, afterCaches f hook l w).
Proof.
  intros Hbody. induction l as [|mc l IH]; intros w; simpl.
  - unfold ret, afterCaches. simpl. rewrite app_nil_r. by destruct w.
  - unfold bind. rewrite Hbody, IH. unfold afterCaches. simpl.
    by rewrite <- app_assoc, <- Nat.iter_succ_r.
Qed.

Lemma onDocumentRemoved_run (document : TextDocument) (w : World) :
  onDocumentRemoved document w
  = (Returned tt,
     recordAll ((fun m => Mode_onDocumentRemoved m document) <$> reads w)
       (afterCaches (cache_onDocumentRemoved document)
          (fun mc => Cache_onDocumentRemoved mc document)
          (modelCaches (self w)) w)).
Proof.
  unfold onDocumentRemoved. unfold bind at 1.
  rewrite (forEach_caches (cache_onDocumentRemoved document)
             (fun mc => Cache_onDocumentRemoved mc document)) by done.
  unfold bind at 1. rewrite modes_forIn_run.
  rewrite forEach_hooks; [done|].
  intros k Hk. by apply Obj_get_own.
Qed.

Lemma dispose_run (w : World) :
  dispose w
  = (Returned tt,
     setSelf
       (recordAll (Mode_dispose <$> reads w)
          (afterCaches cache_dispose Cache_dispose (modelCaches (self w)) w))
       {| modes := None;
          documentRegions := documentRegions (self w);
          modelCaches := [] |}).
Proof.
  unfold dispose. unfold bind at 1.
  rewrite (forEach_caches cache_dispose Cache_dispose) by done.
  unfold bind at 1. unfold bind at 1. rewrite modes_forIn_run.
  unfold bind at 1. rewrite forEach_hooks.
  - done.
  - intros k Hk. by apply Obj_get_own.
Qed.

(** ** Counting hooks *)





(** ** The claims *)




(** ** Runs of the dispatch methods *)


Lemma getModeAtPosition_run (seg : TextDocument -> VueDocumentRegions)
    (document : TextDocument) (position : Position) (w : World) :
  (getModeAtPosition seg document position w).1
  = match modes (self w) with
    | Some o =>
        Returned (Obj.get (getLanguageAtPosition (regionsOf seg document w) position) o)
    | None => Raised TypeError
    end.
Proof.
  unfold getModeAtPosition, bind, cacheGet, regionsOf, modes_read.
  destruct (cache_get seg (clock w) document (cacheObj w)) as [regions c].
  simpl. by destruct (modes (self w)).
Qed.

Lemma getAllLanguageModeRangesInDocument_run (seg : TextDocument -> VueDocumentRegions)
    (document : TextDocument) (w : World) :
  (getAllLanguageModeRangesInDocument seg document w).1
  = match modes (self w), getAllLanguageRanges (regionsOf seg document w) with
    | Some o, ranges => Returned (omap (paired o) ranges)
    | None, [] => Returned []
    | None, _ :: _ => Raised TypeError
    end.
Proof.
  unfold getAllLanguageModeRangesInDocument, cacheGet, regionsOf.
  unfold bind at 1.
  destruct (cache_get seg (clock w) document (cacheObj w)) as [regions c].
  simpl. destruct (modes (self w)) as [o|] eqn:Hmodes.
  - rewrite (forEachPush_reading _ (paired o)); [done|].
    intros lr _. unfold bind, modes_read, paired. simpl. rewrite Hmodes.
    by destruct (Obj.get (languageId lr) o).
  - destruct (getAllLanguageRanges regions) as [|lr ranges]; [done|].
    simpl. unfold bind, modes_read. simpl. by rewrite Hmodes.
Qed.

(** C4: the code on a registry that was constructed and not initialised.
    The constructor leaves [modes] unassigned, so [getMode] and
    [getModeAtPosition] raise a [TypeError] instead of finding nothing,
    [getAllLanguageModeRangesInDocument] raises as soon as the document has
    a language range, and [init] itself raises at its first write; only
    [getAllModes] returns the empty list. *)
Theorem uninitialized_dispatch_raises (seg : TextDocument -> VueDocumentRegions)
    (now : Z) (k : LanguageId) (document : TextDocument) (position : Position) :
  let w := constructor now in
  getMode k w = (Raised TypeError, w) /\
  (getModeAtPosition seg document position w).1 = Raised TypeError /\
  (getAllLanguageModeRangesInDocument seg document w).1
  = match getAllLanguageRanges (regionsOf seg document w) with
    | [] => Returned []
    | _ :: _ => Raised TypeError
    end /\
  getAllModes w = (Returned [], w) /\
  (init "/workspace" noServices w).1 = Raised TypeError.
Proof.
  intros w.
  split; [done|].
  split; [by rewrite getModeAtPosition_run|].
  split; [by rewrite getAllLanguageModeRangesInDocument_run|].
  by split.
Qed.

(** C5, as amended.  [dispose] returns and leaves a registry on which
    [getAllModes] returns the empty list and [onDocumentRemoved] invokes no
    hook and changes nothing; [getMode] and [getModeAtPosition] raise a
    [TypeError], the table being deleted, and
    [getAllLanguageModeRangesInDocument] returns the empty list for a
    document without language ranges and raises a [TypeError] for any
    other. *)
Theorem after_dispose (seg : TextDocument -> VueDocumentRegions) (w : World) :
  exists w',
    dispose w = (Returned tt, w') /\
    getAllModes w' = (Returned [], w') /\
    (forall document, onDocumentRemoved document w' = (Returned tt, w')) /\
    (forall k, getMode k w' = (Raised TypeError, w')) /\
    (forall document position,
       (getModeAtPosition seg document position w').1 = Raised TypeError) /\
    (forall document,
       (getAllLanguageModeRangesInDocument seg document w').1
       = match getAllLanguageRanges (regionsOf seg document w') with
         | [] => Returned []
         | _ :: _ => Raised TypeError
         end).
Proof.
  eexists. split; [apply dispose_run|].
  split; [done|].
  split.
  { intros document. rewrite onDocumentRemoved_run.
    unfold reads, registered, afterCaches, recordAll, setSelf. simpl.
    by rewrite !app_nil_r. }
  split; [done|].
  split.
  - intros document position. by rewrite getModeAtPosition_run.
  - intros document. by rewrite getAllLanguageModeRangesInDocument_run.
Qed.


(** C7.  If the region model of the document gives dialect [D] at the
    position and [getMode D] returns the mode [m], then [getModeAtPosition]
    returns that same [m]. *)
Theorem dispatch_round_trip (seg : TextDocument -> VueDocumentRegions)
    (w : World) (document : TextDocument) (position : Position)
    (D : LanguageId) (m : ModeRef) :
  getLanguageAtPosition (regionsOf seg document w) position = D ->
  getMode D w = (Returned (Some m), w) ->
  (getModeAtPosition seg document position w).1 = Returned (Some m).
Proof.
  intros HD Hm. rewrite getModeAtPosition_run, HD.
  unfold getMode, modes_read in Hm.
  destruct (modes (self w)); [|done]. by injection Hm as ->.
Qed.

(** C8.  On a registry whose [modes] field holds an object, [init]
    completes, and afterwards ['javascript'], ['typescript'] and ['tsx']
    resolve to one and the same instance: the one the constructor
    [getJavascriptMode] returned. *)
Theorem init_shares_script_mode (workspacePath : string) (services : VLSServices)
    (w : World) (o : Obj.t ModeRef) :
  modes (self w) = Some o ->
  exists w' jsMode,
    init workspacePath services w = (Returned tt, w') /\
    instances w' !! jsMode = Some getJavascriptMode /\
    getMode "javascript" w' = (Returned (Some jsMode), w') /\
    getMode "typescript" w' = (Returned (Some jsMode), w') /\
    getMode "tsx" w' = (Returned (Some jsMode), w').
Proof.
  destruct w as [[m dr mcs] c ins clk cs].
  cbv [self modes]. intros ->.
  cbv [init bind construct modes_write setSelf setModes
       self modes instances cacheObj clock calls documentRegions modelCaches].
  eexists. exists (length (ins ++ [getVueHTMLMode])). split; [reflexivity|].
  unfold getMode, modes_read. cbv [self modes instances]. split.
  - rewrite !lookup_app_l by (rewrite !length_app; simpl; lia).
    by apply list_lookup_middle.
  - repeat split; f_equal; f_equal.
    + rewrite !Obj_get_set_ne by done. apply Obj_get_set_eq.
    + rewrite Obj_get_set_ne by done. apply Obj_get_set_eq.
    + apply Obj_get_set_eq.
Qed.

Lemma cache_onDocumentRemoved_idemp (document : TextDocument) (c : VersionedModelCache) :
  cache_onDocumentRemoved document (cache_onDocumentRemoved document c)
  = cache_onDocumentRemoved document c.
Proof.
  unfold cache_onDocumentRemoved, withEntries. simpl.
  by rewrite delete_delete_eq.
Qed.

Lemma iter_idemp {A} (f : A -> A) (n : nat) (x : A) :
  (forall y, f (f y) = f y) ->
  Nat.iter n f (Nat.iter n f x) = Nat.iter n f x.
Proof.
  intros Hf. destruct n as [|n]; [done|].
  assert (forall k y, Nat.iter k f (f y) = f y) as Hk.
  { induction k as [|k IH]; intros y; simpl; [done|]. by rewrite IH, Hf. }
  simpl. by rewrite Hk, Hf.
Qed.

(** C9.  [onDocumentRemoved] returns, a second call for the same document
    returns too, and the second call leaves the registry, the cache, the
    set of mode objects and the clock as the first call left them. *)
Theorem onDocumentRemoved_idempotent (document : TextDocument) (w : World) :
  exists w1 w2,
    onDocumentRemoved document w = (Returned tt, w1) /\
    onDocumentRemoved document w1 = (Returned tt, w2) /\
    self w2 = self w1 /\
    cacheObj w2 = cacheObj w1 /\
    instances w2 = instances w1 /\
    clock w2 = clock w1.
Proof.
  eexists. eexists.
  split; [apply onDocumentRemoved_run|].
  split; [apply onDocumentRemoved_run|].
  simpl. repeat split.
  apply iter_idemp, cache_onDocumentRemoved_idemp.
Qed.


(** ** The claims on concrete registries *)

(** The table [init] builds, and the objects it creates, on an empty
    table: the object numbered 1 is the one [getJavascriptMode] returned. *)
Example ready_table :
  modes (self ready)
  = Some [("vue", 2); ("vue-html", 0); ("css", 3); ("postcss", 4); ("scss", 5);
          ("less", 6); ("stylus", 7);
          ("javascript", 1); ("typescript", 1); ("tsx", 1)].
Proof. reflexivity. Qed.

(** On the registry the constructor builds, [init] raises at its first
    write, after the first three constructors were called. *)
Example init_after_constructor :
  (init "/workspace" noServices (constructor 0)).1 = Raised TypeError /\
  instances (init "/workspace" noServices (constructor 0)).2
  = [getVueHTMLMode; getJavascriptMode; getVueMode].
Proof. split; reflexivity. Qed.


(** The three calls in the record of [dispose], in order. *)
Example ready_dispose_calls :
  calls (dispose ready).2
  = [Cache_dispose RegionsCache;
     Mode_dispose 2; Mode_dispose 0; Mode_dispose 3; Mode_dispose 4;
     Mode_dispose 5; Mode_dispose 6; Mode_dispose 7;
     Mode_dispose 1; Mode_dispose 1; Mode_dispose 1].
Proof. reflexivity. Qed.






(** C5 fails as stated: on a registry that was constructed and disposed,
    and on one that was initialised and disposed, [getMode] raises a
    [TypeError]. *)
Lemma getMode_after_dispose_raises :
  getMode "javascript" disposed = (Raised TypeError, disposed) /\
  (getMode "javascript" (dispose ready).2).1 = Raised TypeError /\
  (getMode "javascript" (dispose ready).2).1 <> Returned None.
Proof. repeat split; try reflexivity. vm_compute. discriminate. Qed.

(** The sample document on the initialised registry: the block in a
    language without a mode is left out, the other ranges keep their order
    and fields. *)
Example ready_ranges :
  (getAllLanguageModeRangesInDocument sampleRegions sampleDocument ready).1
  = Returned
      [ {| mode := 0; lmr_languageId := "vue-html"; lmr_start := at_ 0 10;
           lmr_end := at_ 9 0; lmr_attributeValue := None |};
        {| mode := 1; lmr_languageId := "javascript"; lmr_start := at_ 10 8;
           lmr_end := at_ 19 0; lmr_attributeValue := Some false |} ].
Proof. vm_compute. reflexivity. Qed.


Lemma dispatch_round_trip_ready :
  (getModeAtPosition sampleRegions sampleDocument (at_ 12 0) ready).1
  = Returned (Some 1).
Proof.
  apply (dispatch_round_trip sampleRegions ready sampleDocument (at_ 12 0)
           "javascript" 1).
  - vm_compute. reflexivity.
  - reflexivity.
Defined.

Lemma init_shares_script_mode_empty_table :
  exists w' jsMode,
    init "/workspace" noServices (withEmptyTable (constructor 0)) = (Returned tt, w') /\
    instances w' !! jsMode = Some getJavascriptMode /\
    getMode "javascript" w' = (Returned (Some jsMode), w') /\
    getMode "typescript" w' = (Returned (Some jsMode), w') /\
    getMode "tsx" w' = (Returned (Some jsMode), w').
Proof.
  apply (init_shares_script_mode "/workspace" noServices
           (withEmptyTable (constructor 0)) Obj.empty).
  reflexivity.
Defined.


(** ** Further facts about tables *)

Lemma Obj_get_absent {V} (k : string) (o : Obj.t V) :
  Obj.get k o = None -> k ∉ Obj.keys o.
Proof.
  intros Hnone Hin. apply Obj_get_own in Hin as [v Hv]. congruence.
Qed.

Lemma Obj_get_not_own {V} (k : string) (o : Obj.t V) :
  k ∉ Obj.keys o -> Obj.get k o = None.
Proof.
  unfold Obj.keys. induction o as [|[k' v'] o IH]; simpl; [done|].
  intros [Hne Hk]%not_elem_of_cons.
  apply String.eqb_neq in Hne as ->. by apply IH.
Qed.

Lemma Obj_get_app {V} (k : string) (o1 o2 : Obj.t V) :
  Obj.get k (o1 ++ o2)
  = match Obj.get k o1 with Some v => Some v | None => Obj.get k o2 end.
Proof.
  induction o1 as [|[k' v'] o1 IH]; simpl; [done|].
  by destruct (String.eqb k k').
Qed.

(** Writing a key the table does not own appends it. *)
Lemma Obj_set_absent {V} (k : string) (v : V) (o : Obj.t V) :
  Obj.get k o = None -> Obj.set k v o = o ++ [(k, v)].
Proof.
  induction o as [|[k' v'] o IH]; simpl; [done|].
  destruct (String.eqb k k'); [done|]. intros Hnone. by rewrite IH.
Qed.

Lemma writeAll_other {V} (k : string) (es : list (string * V)) :
  forall o : Obj.t V, k ∉ es.*1 -> Obj.get k (writeAll es o) = Obj.get k o.
Proof.
  unfold writeAll. induction es as [|[k' v'] es IH]; intros o Hk; simpl; [done|].
  rewrite fmap_cons in Hk. apply not_elem_of_cons in Hk as [Hne Hk].
  rewrite IH by done. by apply Obj_get_set_ne.
Qed.

Lemma writeAll_absent {V} (es : list (string * V)) :
  forall o : Obj.t V,
    NoDup es.*1 -> (forall k, k ∈ es.*1 -> Obj.get k o = None) ->
    writeAll es o = o ++ es.
Proof.
  unfold writeAll. induction es as [|[k v] es IH]; intros o Hnd Habs; simpl.
  - by rewrite app_nil_r.
  - rewrite fmap_cons in Hnd. apply NoDup_cons in Hnd as [Hk Hnd].
    rewrite Obj_set_absent by (apply Habs; left).
    rewrite IH; [by rewrite <- app_assoc | done |].
    intros k' Hk'. rewrite Obj_get_app, (Habs k') by (by right). simpl.
    destruct (String.eqb k' k) eqn:E; [|done].
    apply String.eqb_eq in E as ->. done.
Qed.

(** ** Runs of [init] and of the enumeration *)

Lemma length_snoc {A} (l : list A) (x : A) : length (l ++ [x]) = S (length l).
Proof. rewrite length_app. simpl. lia. Qed.

Lemma init_run (workspacePath : string) (services : VLSServices)
    (w : World) (o : Obj.t ModeRef) :
  modes (self w) = Some o ->
  init workspacePath services w
  = (Returned tt,
     {| self := setModes (self w)
                  (Some (writeAll (initEntries (length (instances w))) o));
        cacheObj := cacheObj w;
        instances := instances w ++ initFactories;
        clock := clock w;
        calls := calls w |}).
Proof.
  destruct w as [[m dr mcs] c ins clk cs].
  cbv [self modes instances cacheObj clock calls]. intros ->.
  cbv [init bind construct modes_write setSelf setModes
       self modes instances cacheObj clock calls documentRegions modelCaches].
  rewrite !length_snoc. f_equal. f_equal.
  unfold initFactories. by rewrite <- !app_assoc.
Qed.

Lemma init_raise (workspacePath : string) (services : VLSServices) (w : World) :
  modes (self w) = None ->
  init workspacePath services w
  = (Raised TypeError,
     {| self := self w;
        cacheObj := cacheObj w;
        instances := instances w ++ [getVueHTMLMode; getJavascriptMode; getVueMode];
        clock := clock w;
        calls := calls w |}).
Proof.
  destruct w as [[m dr mcs] c ins clk cs].
  cbv [self modes instances cacheObj clock calls]. intros ->.
  cbv [init bind construct modes_write setSelf setModes
       self modes instances cacheObj clock calls documentRegions modelCaches].
  f_equal. f_equal. by rewrite <- !app_assoc.
Qed.

Lemma getAllModes_run (w : World) : getAllModes w = (Returned (reads w), w).
Proof.
  unfold getAllModes, bind. rewrite modes_forIn_run.
  rewrite (forEachPush_reading _ (fun k => Obj.get k (registered w))); [done|].
  intros k Hk. apply modes_read_registered. by apply Obj_get_own.
Qed.

Lemma reads_none (w : World) : modes (self w) = None -> reads w = [].
Proof. unfold reads, registered. by intros ->. Qed.

Lemma writeAll_entry {V} (k : string) (v : V) (es : list (string * V)) :
  forall o : Obj.t V,
    NoDup es.*1 -> (k, v) ∈ es -> Obj.get k (writeAll es o) = Some v.
Proof.
  unfold writeAll. induction es as [|[k0 v0] es IH]; intros o Hnd Hin.
  - by apply elem_of_nil in Hin.
  - rewrite fmap_cons in Hnd. apply NoDup_cons in Hnd as [Hk0 Hnd].
    apply elem_of_cons in Hin as [[= -> ->]|Hin]; simpl.
    + fold (writeAll es (Obj.set k0 v0 o)).
      rewrite writeAll_other by done. apply Obj_get_set_eq.
    + by apply IH.
Qed.

Lemma initEntries_keys (n : nat) : (initEntries n).*1 = initKeys.
Proof. reflexivity. Qed.

Lemma initKeys_NoDup : NoDup initKeys.
Proof. apply (bool_decide_unpack _). vm_compute. exact I. Qed.

Lemma Obj_set_own_keys {V} (k : string) (v : V) (o : Obj.t V) :
  k ∈ Obj.keys o -> Obj.keys (Obj.set k v o) = Obj.keys o.
Proof.
  unfold Obj.keys. induction o as [|[k' v'] o IH].
  - by intros ?%elem_of_nil.
  - cbn [Obj.set]. destruct (String.eqb k k') eqn:E; [done|].
    rewrite !fmap_cons. intros [->|Hin]%elem_of_cons.
    + by rewrite String.eqb_refl in E.
    + f_equal. by apply IH.
Qed.

Lemma writeAll_own_keys {V} (es : list (string * V)) :
  forall o : Obj.t V,
    (forall k, k ∈ es.*1 -> k ∈ Obj.keys o) ->
    Obj.keys (writeAll es o) = Obj.keys o.
Proof.
  unfold writeAll. induction es as [|[k v] es IH]; intros o Hown; simpl; [done|].
  assert (Obj.keys (Obj.set k v o) = Obj.keys o) as Hk
    by (apply Obj_set_own_keys, Hown; left).
  rewrite IH; [done|]. intros k' Hk'. rewrite Hk. apply Hown. by right.
Qed.

(** On a table owning none of its identifiers, the writes of [init] are
    appended, and no identifier is owned twice afterwards. *)
Lemma writeAll_init_absent (n : nat) (o : Obj.t ModeRef) :
  Obj.wf o ->
  Forall (fun k => Obj.get k o = None) initKeys ->
  writeAll (initEntries n) o = o ++ initEntries n /\
  Obj.wf (o ++ initEntries n).
Proof.
  intros Hwf Habs. rewrite Forall_forall in Habs. split.
  - apply writeAll_absent; [apply initKeys_NoDup | done].
  - unfold Obj.wf, Obj.keys. rewrite fmap_app. apply NoDup_app.
    split; [done|]. split; [|apply initKeys_NoDup].
    intros k Hk Hk'. apply Habs in Hk'. by apply Obj_get_absent in Hk'.
Qed.


Lemma getModeAtPosition_world (seg : TextDocument -> VueDocumentRegions)
    (document : TextDocument) (position : Position) (w : World) :
  (getModeAtPosition seg document position w).2 = afterGet seg document w.
Proof.
  unfold getModeAtPosition, bind, cacheGet, afterGet, modes_read.
  destruct (cache_get seg (clock w) document (cacheObj w)) as [regions c].
  simpl. by destruct (modes (self w)).
Qed.

Lemma getAllLanguageModeRangesInDocument_world
    (seg : TextDocument -> VueDocumentRegions) (document : TextDocument) (w : World) :
  (getAllLanguageModeRangesInDocument seg document w).2 = afterGet seg document w.
Proof.
  unfold getAllLanguageModeRangesInDocument, cacheGet, afterGet.
  unfold bind at 1.
  destruct (cache_get seg (clock w) document (cacheObj w)) as [regions c].
  simpl. destruct (modes (self w)) as [o|] eqn:Hmodes.
  - rewrite (forEachPush_reading _ (paired o)); [done|].
    intros lr _. unfold bind, modes_read, paired. simpl. rewrite Hmodes.
    by destruct (Obj.get (languageId lr) o).
  - destruct (getAllLanguageRanges regions) as [|lr ranges]; [done|].
    simpl. unfold bind, modes_read. simpl. by rewrite Hmodes.
Qed.

(** ** Further properties of the registry *)

(** X1.  On a registry holding a table, [init] completes, creates eight
    mode objects, one per constructor call and in the order of the calls,
    and binds every identifier it writes to the object built for it: the
    seven non-script identifiers to seven objects of their own, the three
    script identifiers to the eighth. *)
Theorem init_registers_fresh_modes (workspacePath : string) (services : VLSServices)
    (w : World) (o : Obj.t ModeRef) :
  modes (self w) = Some o ->
  exists w',
    init workspacePath services w = (Returned tt, w') /\
    instances w' = instances w ++ initFactories /\
    forall k m, (k, m) ∈ initEntries (length (instances w)) ->
                getMode k w' = (Returned (Some m), w').
Proof.
  intros Hmodes. eexists. split; [by apply init_run|]. split; [done|].
  intros k m Hin. unfold getMode, modes_read. cbv [self modes setModes].
  rewrite (writeAll_entry k m); [done | | done].
  rewrite initEntries_keys. apply initKeys_NoDup.
Qed.


(** X3.  When the table owns none of the identifiers [init] writes, [init]
    appends them in the order of its writes, so that [getAllModes] then
    returns the modes registered before followed by the ten [init]
    registered, the script mode three times at the end. *)
Theorem init_then_getAllModes (workspacePath : string) (services : VLSServices)
    (w : World) (o : Obj.t ModeRef) :
  modes (self w) = Some o ->
  Obj.wf o ->
  Forall (fun k => Obj.get k o = None) initKeys ->
  exists w',
    init workspacePath services w = (Returned tt, w') /\
    getAllModes w'
    = (Returned (Obj.values o ++ Obj.values (initEntries (length (instances w)))), w').
Proof.
  intros Hmodes Hwf Habs. eexists. split; [by apply init_run|].
  destruct (writeAll_init_absent (length (instances w)) o Hwf Habs) as [Heq Hwf'].
  rewrite getAllModes_run. f_equal. f_equal.
  rewrite reads_wf; unfold registered; cbv [self modes setModes default from_option id];
    rewrite Heq; [|done].
  unfold Obj.values. by rewrite fmap_app.
Qed.

(** X4.  On a registry without a table, be it not yet initialised or
    disposed, [init] raises a [TypeError] at its first write: the registry
    stays without a table, no hook is invoked, and the three mode objects
    constructed before the write are left registered nowhere. *)
Theorem init_without_table_raises (workspacePath : string) (services : VLSServices)
    (w : World) :
  modes (self w) = None ->
  exists w',
    init workspacePath services w = (Raised TypeError, w') /\
    self w' = self w /\
    instances w' = instances w ++ [getVueHTMLMode; getJavascriptMode; getVueMode] /\
    calls w' = calls w /\
    cacheObj w' = cacheObj w.
Proof. intros Hmodes. eexists. split; [by apply init_raise|]. done. Qed.

(** X5.  A second [dispose] returns and does nothing: no hook is invoked
    again and the registry stays as the first [dispose] left it. *)
Theorem dispose_twice (w : World) :
  exists w1,
    dispose w = (Returned tt, w1) /\
    dispose w1 = (Returned tt, w1).
Proof.
  eexists. split; [apply dispose_run|].
  rewrite dispose_run. f_equal.
  unfold reads, registered, afterCaches, recordAll, setSelf. simpl.
  by rewrite !app_nil_r.
Qed.

(** X6.  [dispose] sends its hooks in a fixed order: first [dispose] to
    every cache of [modelCaches], then [dispose] to the mode of every
    identifier in the order of registration; it then leaves the registry
    with no table and an empty [modelCaches], and creates no mode. *)
Theorem dispose_order (w : World) :
  Obj.wf (registered w) ->
  exists w',
    dispose w = (Returned tt, w') /\
    calls w'
    = calls w ++ (Cache_dispose <$> modelCaches (self w))
              ++ (Mode_dispose <$> Obj.values (registered w)) /\
    modes (self w') = None /\
    modelCaches (self w') = [] /\
    documentRegions (self w') = documentRegions (self w) /\
    instances w' = instances w.
Proof.
  intros Hwf. eexists. split; [apply dispose_run|]. simpl.
  by rewrite (reads_wf w Hwf), <- app_assoc.
Qed.

(** X7.  [onDocumentRemoved] sends its hooks in a fixed order: first the
    removal hook of every cache of [modelCaches], then the removal hook of
    the mode of every identifier in the order of registration; it leaves
    the fields of the registry as they were and creates no mode. *)
Theorem onDocumentRemoved_order (document : TextDocument) (w : World) :
  Obj.wf (registered w) ->
  exists w',
    onDocumentRemoved document w = (Returned tt, w') /\
    calls w'
    = calls w ++ ((fun mc => Cache_onDocumentRemoved mc document) <$> modelCaches (self w))
              ++ ((fun m => Mode_onDocumentRemoved m document) <$> Obj.values (registered w)) /\
    self w' = self w /\
    instances w' = instances w.
Proof.
  intros Hwf. eexists. split; [apply onDocumentRemoved_run|]. simpl.
  by rewrite (reads_wf w Hwf), <- app_assoc.
Qed.

(** X8.  The dispatch methods are read-only on the registry.  Whether they
    return or raise, [getModeAtPosition] and
    [getAllLanguageModeRangesInDocument] change nothing but the cache
    object, through its one [get]: the table, [modelCaches], the mode
    objects and the record of hooks stay as they were; [getMode] and
    [getAllModes] change nothing at all. *)
Theorem dispatch_is_read_only (seg : TextDocument -> VueDocumentRegions)
    (document : TextDocument) (position : Position) (k : LanguageId) (w : World) :
  (getModeAtPosition seg document position w).2 = afterGet seg document w /\
  (getAllLanguageModeRangesInDocument seg document w).2 = afterGet seg document w /\
  self (afterGet seg document w) = self w /\
  instances (afterGet seg document w) = instances w /\
  calls (afterGet seg document w) = calls w /\
  (getMode k w).2 = w /\
  (getAllModes w).2 = w.
Proof.
  split; [apply getModeAtPosition_world|].
  split; [apply getAllLanguageModeRangesInDocument_world|].
  repeat (split; [done|]).
  split; [|by rewrite getAllModes_run].
  unfold getMode, modes_read. by destruct (modes (self w)).
Qed.

(** X9.  [getAllModes] and [getMode] agree: [getAllModes] returns, and a
    mode is in the list it returns exactly when [getMode] returns that
    mode for some identifier. *)
Theorem getAllModes_iff_getMode (w : World) (m : ModeRef) :
  exists l,
    getAllModes w = (Returned l, w) /\
    (m ∈ l <-> exists k, getMode k w = (Returned (Some m), w)).
Proof.
  eexists. split; [apply getAllModes_run|].
  unfold reads, getMode, modes_read, registered.
  destruct (modes (self w)) as [o|]; simpl.
  - rewrite list_elem_of_omap. split.
    + intros [k [_ Hk]]. exists k. by rewrite Hk.
    + intros [k [= Hk]]. exists k. split; [|done].
      destruct (decide (k ∈ Obj.keys o)) as [Hin|Hnot]; [done|].
      apply Obj_get_not_own in Hnot. congruence.
  - split; [by intros ?%elem_of_nil | by intros [? ?]].
Qed.

(** X10.  On a registry without a table the lifecycle calls are safe:
    [onDocumentRemoved] and [dispose] return, and the only hooks they
    invoke are those of the caches of [modelCaches]. *)
Theorem lifecycle_without_table (document : TextDocument) (w : World) :
  modes (self w) = None ->
  (exists w',
     onDocumentRemoved document w = (Returned tt, w') /\
     calls w'
     = calls w ++ ((fun mc => Cache_onDocumentRemoved mc document) <$> modelCaches (self w)) /\
     self w' = self w) /\
  (exists w',
     dispose w = (Returned tt, w') /\
     calls w' = calls w ++ (Cache_dispose <$> modelCaches (self w)) /\
     modelCaches (self w') = []).
Proof.
  intros Hmodes. split; eexists.
  - split; [apply onDocumentRemoved_run|]. simpl.
    by rewrite (reads_none w Hmodes), app_nil_r.
  - split; [apply dispose_run|]. simpl.
    by rewrite (reads_none w Hmodes), app_nil_r.
Qed.

(** X11.  Running [init] on a table that already owns all the identifiers
    [init] writes registers no identifier twice: the identifiers of the
    table and their order stay as they were, only the modes they are bound
    to change. *)
Theorem init_again_keeps_identifiers (workspacePath : string) (services : VLSServices)
    (w : World) (o : Obj.t ModeRef) :
  modes (self w) = Some o ->
  Forall (fun k => k ∈ Obj.keys o) initKeys ->
  exists w',
    init workspacePath services w = (Returned tt, w') /\
    Obj.keys (registered w') = Obj.keys o.
Proof.
  intros Hmodes Hown. rewrite Forall_forall in Hown.
  eexists. split; [by apply init_run|].
  unfold registered. cbv [self modes setModes default from_option id].
  apply writeAll_own_keys. by rewrite initEntries_keys.
Qed.


(** X13.  [init] followed by [dispose], on a table owning none of the
    identifiers of [init]: both return, and [dispose] sends [dispose] to
    the caches, then to the modes registered before [init], then to every
    mode [init] registered, identifier by identifier; every object [init]
    created is disposed. *)
Theorem init_then_dispose (workspacePath : string) (services : VLSServices)
    (w : World) (o : Obj.t ModeRef) :
  modes (self w) = Some o ->
  Obj.wf o ->
  Forall (fun k => Obj.get k o = None) initKeys ->
  exists w1 w2,
    init workspacePath services w = (Returned tt, w1) /\
    dispose w1 = (Returned tt, w2) /\
    calls w2
    = calls w ++ (Cache_dispose <$> modelCaches (self w))
              ++ (Mode_dispose <$> Obj.values o)
              ++ (Mode_dispose <$> Obj.values (initEntries (length (instances w)))).
Proof.
  intros Hmodes Hwf Habs. eexists. eexists.
  split; [by apply init_run|]. split; [apply dispose_run|].
  destruct (writeAll_init_absent (length (instances w)) o Hwf Habs) as [Heq Hwf'].
  cbv [calls setSelf recordAll afterCaches self modelCaches setModes].
  rewrite reads_wf; unfold registered; cbv [self modes setModes default from_option id];
    rewrite Heq; [|done].
  unfold Obj.values. by rewrite fmap_app, fmap_app, <- app_assoc.
Qed.

(** ** The further properties on concrete registries *)

Lemma init_registers_fresh_modes_empty_table :
  exists w',
    init "/workspace" noServices (withEmptyTable (constructor 0)) = (Returned tt, w') /\
    instances w' = instances (withEmptyTable (constructor 0)) ++ initFactories /\
    forall k m,
      (k, m) ∈ initEntries (length (instances (withEmptyTable (constructor 0)))) ->
      getMode k w' = (Returned (Some m), w').
Proof.
  apply (init_registers_fresh_modes "/workspace" noServices
           (withEmptyTable (constructor 0)) Obj.empty).
  reflexivity.
Defined.


Lemma init_then_getAllModes_empty_table :
  exists w',
    init "/workspace" noServices (withEmptyTable (constructor 0)) = (Returned tt, w') /\
    getAllModes w'
    = (Returned
         (Obj.values Obj.empty
          ++ Obj.values
               (initEntries (length (instances (withEmptyTable (constructor 0)))))),
       w').
Proof.
  apply (init_then_getAllModes "/workspace" noServices
           (withEmptyTable (constructor 0)) Obj.empty).
  - reflexivity.
  - apply (bool_decide_unpack _). vm_compute. exact I.
  - apply (bool_decide_unpack _). vm_compute. exact I.
Defined.

Lemma init_without_table_raises_disposed :
  exists w',
    init "/workspace" noServices disposed = (Raised TypeError, w') /\
    self w' = self disposed /\
    instances w'
    = instances disposed ++ [getVueHTMLMode; getJavascriptMode; getVueMode] /\
    calls w' = calls disposed /\
    cacheObj w' = cacheObj disposed.
Proof.
  apply (init_without_table_raises "/workspace" noServices disposed).
  reflexivity.
Defined.

Lemma dispose_order_ready :
  exists w',
    dispose ready = (Returned tt, w') /\
    calls w'
    = calls ready ++ (Cache_dispose <$> modelCaches (self ready))
                  ++ (Mode_dispose <$> Obj.values (registered ready)) /\
    modes (self w') = None /\
    modelCaches (self w') = [] /\
    documentRegions (self w') = documentRegions (self ready) /\
    instances w' = instances ready.
Proof.
  apply (dispose_order ready).
  apply (bool_decide_unpack _). vm_compute. exact I.
Defined.

Lemma onDocumentRemoved_order_ready :
  exists w',
    onDocumentRemoved sampleDocument ready = (Returned tt, w') /\
    calls w'
    = calls ready
      ++ ((fun mc => Cache_onDocumentRemoved mc sampleDocument)
            <$> modelCaches (self ready))
      ++ ((fun m => Mode_onDocumentRemoved m sampleDocument)
            <$> Obj.values (registered ready)) /\
    self w' = self ready /\
    instances w' = instances ready.
Proof.
  apply (onDocumentRemoved_order sampleDocument ready).
  apply (bool_decide_unpack _). vm_compute. exact I.
Defined.

Lemma lifecycle_without_table_constructed :
  (exists w',
     onDocumentRemoved sampleDocument (constructor 0) = (Returned tt, w') /\
     calls w'
     = calls (constructor 0)
       ++ ((fun mc => Cache_onDocumentRemoved mc sampleDocument)
             <$> modelCaches (self (constructor 0))) /\
     self w' = self (constructor 0)) /\
  (exists w',
     dispose (constructor 0) = (Returned tt, w') /\
     calls w'
     = calls (constructor 0) ++ (Cache_dispose <$> modelCaches (self (constructor 0))) /\
     modelCaches (self w') = []).
Proof.
  apply (lifecycle_without_table sampleDocument (constructor 0)).
  reflexivity.
Defined.

Lemma init_again_keeps_identifiers_ready :
  exists w',
    init "/workspace" noServices ready = (Returned tt, w') /\
    Obj.keys (registered w') = Obj.keys (registered ready).
Proof.
  apply (init_again_keeps_identifiers "/workspace" noServices ready
           (registered ready)).
  - vm_compute. reflexivity.
  - apply (bool_decide_unpack _). vm_compute. exact I.
Defined.


Lemma init_then_dispose_empty_table :
  exists w1 w2,
    init "/workspace" noServices (withEmptyTable (constructor 0)) = (Returned tt, w1) /\
    dispose w1 = (Returned tt, w2) /\
    calls w2
    = calls (withEmptyTable (constructor 0))
      ++ (Cache_dispose <$> modelCaches (self (withEmptyTable (constructor 0))))
      ++ (Mode_dispose <$> Obj.values Obj.empty)
      ++ (Mode_dispose
            <$> Obj.values
                  (initEntries (length (instances (withEmptyTable (constructor 0)))))).
Proof.
  apply (init_then_dispose "/workspace" noServices
           (withEmptyTable (constructor 0)) Obj.empty).
  - reflexivity.
  - apply (bool_decide_unpack _). vm_compute. exact I.
  - apply (bool_decide_unpack _). vm_compute. exact I.
Defined.
